(** * Degree Verifier: the upload / preprocess / OCR / cleanup pipeline

    A shallow embedding of [app/main.py].  The handler sequences calls to the
    operating system ([tempfile], [os], [shutil]), to OpenCV ([cv2]) and to
    the EasyOCR reader.  Those collaborators are modelled by a filesystem
    state (a finite map from paths to file contents), by the sequence of
    names [tempfile] draws, and by an environment record holding the opaque
    codecs and the recognition engine.  Python exceptions are explicit: every
    operation returns either a value or the exception it raises, together
    with the filesystem it leaves behind. *)

From Stdlib Require Import ZArith QArith_base Ascii String List Lia.
From stdpp Require Import base option list strings gmap fin_maps.

Local Open Scope string_scope.
Local Open Scope Z_scope.

(** ** Strings: [str.lower] and [str.split] *)

Module PyStr.

(** [str.lower] on one character.  File names are modelled as strings of
    8-bit characters; only the letters A-Z have a lower-case form. *)
Definition lower_char (c : ascii) : ascii :=
  let n := N_of_ascii c in
  if ((65 <=? n) && (n <=? 90))%N then ascii_of_N (n + 32) else c.

Fixpoint lower (s : string) : string :=
  match s with
  | EmptyString => EmptyString
  | String c r => String (lower_char c) (lower r)
  end.

(** [s.split(sep)] for a one-character separator: the segments between
    the occurrences of [sep], in order; always at least one segment. *)
Fixpoint split (sep : ascii) (s : string) : list string :=
  match s with
  | EmptyString => [EmptyString]
  | String c r =>
      if Ascii.eqb c sep then EmptyString :: split sep r
      else match split sep r with
           | seg :: segs => String c seg :: segs
           | [] => [String c EmptyString]
           end
  end.

(** [l[-1]]: the last element; [IndexError] on an empty list is the
    [None] case. *)
Definition last_item {A} (l : list A) : option A := last l.

Fixpoint contains (c : ascii) (s : string) : bool :=
  match s with
  | EmptyString => false
  | String d r => Ascii.eqb d c || contains c r
  end.

End PyStr.

(** ** Exceptions and results *)

(** An exception raised by a library call: its class name and the message
    that [str(e)] returns. *)
Record error := PyError { cls : string; msg : string }.

Definition str (e : error) : string := msg e.

(** The classes of the standard library that derive from [BaseException]
    without deriving from [Exception]. *)
Definition base_only_classes : list string :=
  ["BaseException"; "BaseExceptionGroup"; "GeneratorExit"; "KeyboardInterrupt";
   "SystemExit"; "CancelledError"].

(** [isinstance(e, Exception)], decided by the class of [e]. *)
Definition isinstance_Exception (e : error) : bool :=
  negb (existsb (String.eqb (cls e)) base_only_classes).

(** What can leave the request handler: FastAPI's [HTTPException], or any
    other exception, which the handler does not catch. *)
Inductive exn :=
| HTTPException (status_code : Z) (detail : string)
| Unhandled (e : error).

Inductive res (E A : Type) :=
| Ok (a : A)
| Raise (e : E).
Arguments Ok {E A} a.
Arguments Raise {E A} e.

(** ** The filesystem and the temporary-name generator *)

Abbreviation bytes := (list Byte.byte).

(** [files] maps every existing path to its contents; [names] are the random
    name stems [tempfile] will draw next, in order. *)
Record world := World { files : gmap string bytes; names : list string }.

(** Computations that read and change the world and may raise. The world
    is returned in both cases: what was written before an exception stays. *)
Definition M (E A : Type) : Type := world -> res E A * world.

Definition ret {E A} (a : A) : M E A := fun w => (Ok a, w).

Definition raise {E A} (e : E) : M E A := fun w => (Raise e, w).

Definition bind {E A B} (c : M E A) (k : A -> M E B) : M E B :=
  fun w =>
    match c w with
    | (Ok a, w1) => k a w1
    | (Raise e, w1) => (Raise e, w1)
    end.

Notation "'let!' x ':=' c 'in' k" := (bind c (fun x => k))
  (at level 10, x name, c at level 100, k at level 200).

(** A library exception crossing the handler untouched. *)
Definition lift {A} (c : M error A) : M exn A :=
  fun w =>
    match c w with
    | (Ok a, w1) => (Ok a, w1)
    | (Raise e, w1) => (Raise (Unhandled e), w1)
    end.

Module os.

(** [os.path.exists(path)] *)
Definition path_exists (path : string) : M error bool :=
  fun w => (Ok (bool_decide (is_Some (files w !! path))), w).

(** [os.remove(path)] *)
Definition remove (path : string) : M error unit :=
  fun w =>
    match files w !! path with
    | Some _ => (Ok tt, World (delete path (files w)) (names w))
    | None =>
        (Raise (PyError "FileNotFoundError"
                  ("[Errno 2] No such file or directory: '" +:+ path +:+ "'")), w)
    end.

End os.

Module tempfile.

Definition tempdir : string := "/tmp".
Definition template : string := "tmp".

(** The loop of [mkstemp]: draw the next name, skip it when the file
    exists already, create the file otherwise. [cands] holds the names the
    generator yields within the [TMP_MAX] attempts. *)
Fixpoint mkstemp_inner (suffix : string) (fs : gmap string bytes)
    (cands : list string) : option (string * list string) :=
  match cands with
  | [] => None
  | name :: rest =>
      let file := tempdir +:+ "/" +:+ template +:+ name +:+ suffix in
      if bool_decide (is_Some (fs !! file)) then mkstemp_inner suffix fs rest
      else Some (file, rest)
  end.

(** [tempfile.mkstemp(suffix=suffix)] followed by [os.close] of the
    descriptor: an empty file at a path that did not exist. *)
Definition mkstemp (suffix : string) : M error string :=
  fun w =>
    match mkstemp_inner suffix (files w) (names w) with
    | Some (file, rest) => (Ok file, World (<[file := []]> (files w)) rest)
    | None =>
        (Raise (PyError "FileExistsError"
                  "[Errno 17] No usable temporary file name found"),
         World (files w) [])
    end.

End tempfile.

(** ** The upload stream and [shutil.copyfileobj] *)

(** The file-like object [file.file]: each [read] yields a chunk, the empty
    chunk at the end of the data, or raises. *)
Inductive stream :=
| Eof
| Chunk (buf : bytes) (rest : stream)
| ReadError (e : error).

Module shutil.

(** [open(path, "wb")]: the file is created or truncated. *)
Definition open_wb (path : string) : M error unit :=
  fun w => (Ok tt, World (<[path := []]> (files w)) (names w)).

(** [fdst.write(buf)] on the file opened at [path]. *)
Definition write (path : string) (buf : bytes) : M error unit :=
  fun w => (Ok tt, World (alter (fun old => (old ++ buf)%list) path (files w)) (names w)).

(** [copyfileobj(fsrc, fdst)]: read chunks until an empty one, writing
    each to [fdst]. *)
Fixpoint copyfileobj (fsrc : stream) (fdst : string) : M error unit :=
  match fsrc with
  | Eof => ret tt
  | ReadError e => raise e
  | Chunk [] _ => ret tt
  | Chunk buf rest => let! _ := write fdst buf in copyfileobj rest fdst
  end.

End shutil.

(** ** OpenCV and EasyOCR *)

(** One text region found by the reader: its box, its text and the
    confidence of the recognition. *)
Record detection := Detection {
  bbox : list (Z * Z);
  text : string;
  confidence : Q
}.

(** The parts of the libraries this program does not fix: the image codecs,
    the colour conversion of one pixel, and the recognition engine.  The
    engine is handed whatever is stored at the path ([None]: no such file). *)
Record Env := {
  imdecode : bytes -> option (list (list (Z * Z * Z)));
  bgr2gray : Z * Z * Z -> Z;
  imencode_jpg : list (list Z) -> bytes;
  detect : option bytes -> res error (list detection)
}.

Module cv2.
Section WithEnv.
Context (env : Env).

(** [cv2.imread(path, cv2.IMREAD_COLOR)]: [None] when the file is missing
    or does not decode. *)
Definition imread (path : string) : M error (option (list (list (Z * Z * Z)))) :=
  fun w => (Ok (files w !! path ≫= imdecode env), w).

(** [cv2.cvtColor(img, cv2.COLOR_BGR2GRAY)] *)
Definition cvtColor_BGR2GRAY (img : list (list (Z * Z * Z))) : list (list Z) :=
  map (map (bgr2gray env)) img.

(** [cv2.threshold(src, thresh, maxval, cv2.THRESH_BINARY)]: as OpenCV
    documents it, [dst(x,y) = maxval] if [src(x,y) > thresh], and [0]
    otherwise.  Returns the threshold used and the result. *)
Definition threshold_pixel (thresh maxval v : Z) : Z :=
  if thresh <? v then maxval else 0.

Definition threshold_BINARY (src : list (list Z)) (thresh maxval : Z)
    : Z * list (list Z) :=
  (thresh, map (map (threshold_pixel thresh maxval)) src).

(** [cv2.imwrite(path, img)] with a [.jpg] path. *)
Definition imwrite (path : string) (img : list (list Z)) : M error bool :=
  fun w => (Ok true, World (<[path := imencode_jpg env img]> (files w)) (names w)).

End WithEnv.
End cv2.

Module easyocr.
Section WithEnv.
Context (env : Env).

(** [reader.readtext(image, detail=0)]: only the text of each detection. *)
Definition readtext_detail0 (image : string) : M error (list string) :=
  fun w =>
    match detect env (files w !! image) with
    | Ok ds => (Ok (map text ds), w)
    | Raise e => (Raise e, w)
    end.

End WithEnv.
End easyocr.

(** ** JSON values and the framework's responses *)

Local Set Warnings "-register-all".

Inductive json :=
| JStr (s : string)
| JList (l : list json)
| JObj (fields : list (string * json)).

Record response := Response { status : Z; content : json }.

(** What FastAPI sends for the outcome of a path operation: 200 with the
    returned value; for an [HTTPException] its status code and
    [{"detail": detail}]; for any other exception the server-error page.
    The last case is the framework's answer to an instance of [Exception];
    the properties below rely on it for such exceptions only. *)
Definition respond (r : res exn json) : response :=
  match r with
  | Ok body => Response 200 body
  | Raise (HTTPException code detail) => Response code (JObj [("detail", JStr detail)])
  | Raise (Unhandled _) => Response 500 (JStr "Internal Server Error")
  end.

(** ** app/main.py *)

Record UploadFile := { filename : option string; file_ : stream }.

Section App.
Context (env : Env).

Definition preprocess_image (image_path : string) : M error string :=
  let! img := cv2.imread env image_path in
  match img with
  | None => ret image_path
  | Some img =>
      let gray := cv2.cvtColor_BGR2GRAY env img in
      let '(_, thresh) := cv2.threshold_BINARY gray 150 255 in
      let! processed_path := tempfile.mkstemp ".jpg" in
      let! _ := cv2.imwrite env processed_path thresh in
      ret processed_path
  end.

Definition read_root : M exn json :=
  ret (JObj [("status", JStr "ok"); ("message", JStr "Degree Verifier API running")]).

Definition allowed : list string := ["jpg"; "jpeg"; "png"].

(** Lines 51-57: the checks on [file.filename]; yields the file name and
    [ext]. *)
Definition validate (filename : option string) : res exn (string * string) :=
  match filename with
  | None | Some EmptyString => Raise (HTTPException 400 "No filename provided")
  | Some fn =>
      match PyStr.last_item (PyStr.split "." (PyStr.lower fn)) with
      | None => Raise (Unhandled (PyError "IndexError" "list index out of range"))
      | Some ext =>
          if negb (existsb (String.eqb ext) allowed)
          then Raise (HTTPException 400 "Only JPG/PNG images are supported")
          else Ok (fn, ext)
      end
  end.

(** The body of [try]: the value of the local [processed_path] when the
    body ends ([None]: never assigned), and how the body ended. *)
Definition try_body (tmp_path : string)
    : world -> (option string * res error (list string)) * world :=
  fun w =>
    match preprocess_image tmp_path w with
    | (Raise e, w1) => ((None, Raise e), w1)
    | (Ok processed_path, w1) =>
        let '(r, w2) := easyocr.readtext_detail0 env processed_path w1 in
        ((Some processed_path, r), w2)
    end.

(** [except Exception as e: raise HTTPException(500, ...)]: an exception
    that is not an instance of [Exception] is not caught. *)
Definition except_clause (r : res error (list string)) : res exn (list string) :=
  match r with
  | Ok results => Ok results
  | Raise e =>
      if isinstance_Exception e
      then Raise (HTTPException 500 ("OCR failed: " +:+ str e))
      else Raise (Unhandled e)
  end.

(** Reading a local variable that may not have been assigned. *)
Definition read_local (name : string) (v : option string) : M error string :=
  match v with
  | Some x => ret x
  | None =>
      raise (PyError "UnboundLocalError"
               ("cannot access local variable '" +:+ name
                  +:+ "' where it is not associated with a value"))
  end.

Definition finally_clause (tmp_path : string) (processed_path : option string)
    : M error unit :=
  let! there := os.path_exists tmp_path in
  let! _ := (if there : bool then os.remove tmp_path else ret tt) in
  let! processed_path := read_local "processed_path" processed_path in
  let! there := os.path_exists processed_path in
  if there : bool then os.remove processed_path else ret tt.

(** The whole [try ... except ... finally]: an exception raised by the
    [finally] clause replaces whatever the statement was about to do. *)
Definition try_statement (tmp_path : string) : M exn (list string) :=
  fun w =>
    let '((processed_path, r), w1) := try_body tmp_path w in
    let r' := except_clause r in
    match finally_clause tmp_path processed_path w1 with
    | (Ok _, w2) => (r', w2)
    | (Raise e, w2) => (Raise (Unhandled e), w2)
    end.

(** Lines 59-65: the scratch file for the upload and the copy into it. *)
Definition stage (suffix : string) (src : stream) : M error string :=
  let! tmp_path := tempfile.mkstemp suffix in
  let! _ := shutil.open_wb tmp_path in
  let! _ := shutil.copyfileobj src tmp_path in
  ret tmp_path.

Definition upload_and_ocr (file : UploadFile) : M exn json :=
  match validate (filename file) with
  | Raise e => raise e
  | Ok (fn, ext) =>
      let suffix := "." +:+ ext in
      let! tmp_path := lift (stage suffix (file_ file)) in
      let! results := try_statement tmp_path in
      ret (JObj [("filename", JStr fn); ("ocr_text", JList (map JStr results))])
  end.

(** The two routes of the application. *)
Inductive request :=
| GET_root
| POST_upload (file : UploadFile).

Definition serve (rq : request) (w : world) : response * world :=
  let '(r, w') :=
    match rq with
    | GET_root => read_root w
    | POST_upload file => upload_and_ocr file w
    end in
  (respond r, w').

End App.

(** ** Notions the properties are stated with *)

(** The suffix of a file name, read off the name itself: what follows the
    last dot, or the whole name when it has no dot. *)
Fixpoint suffix (s : string) : string :=
  match s with
  | EmptyString => EmptyString
  | String c r =>
      if PyStr.contains "." r then suffix r
      else if Ascii.eqb c "." then r
      else s
  end.

(** The path [mkstemp] builds from a drawn name and a suffix. *)
Definition temp_path (name suffix : string) : string :=
  tempfile.tempdir +:+ "/" +:+ tempfile.template +:+ name +:+ suffix.

(** Some name still to be drawn is free for this suffix. *)
Definition can_allocate (suffix : string) (w : world) : Prop :=
  exists name, name ∈ names w /\ files w !! temp_path name suffix = None.

(** The matrix [preprocess_image] hands to [cv2.imwrite]. *)
Definition binarized (env : Env) (img : list (list (Z * Z * Z))) : list (list Z) :=
  snd (cv2.threshold_BINARY (cv2.cvtColor_BGR2GRAY env img) 150 255).

(** The pixel in row [i], column [j]. *)
Definition pixel {A} (img : list (list A)) (i j : nat) : option A :=
  img !! i ≫= fun row => row !! j.

Definition detail_body (d : string) : json := JObj [("detail", JStr d)].

(** What [copyfileobj] takes from a stream: the chunks read before the
    first empty read, the end of the stream or a failing read. *)
Fixpoint stream_data (s : stream) : bytes :=
  match s with
  | Chunk (b :: buf) rest => ((b :: buf) ++ stream_data rest)%list
  | _ => []
  end.

(** The exception a stream raises before its data ends, if any. *)
Fixpoint stream_error (s : stream) : option error :=
  match s with
  | Chunk (_ :: _) rest => stream_error rest
  | ReadError e => Some e
  | _ => None
  end.



(** ** A small concrete instance, used to run the program *)

Module Demo.

(** A toy codec: a file that starts with byte 0x89 decodes to one row of
    grey pixels, one per following byte; anything else does not decode. *)
Definition decode (b : bytes) : option (list (list (Z * Z * Z))) :=
  match b with
  | Byte.x89 :: px =>
      Some [map (fun c => let v := Z.of_N (Byte.to_N c) in (v, v, v)) px]
  | _ => None
  end.

Definition gray (p : Z * Z * Z) : Z :=
  let '(b, g, r) := p in (b + g + r) / 3.

Definition encode (img : list (list Z)) : bytes :=
  Byte.xd8 :: concat (map (map (fun v => if v =? 0 then Byte.x00 else Byte.xff)) img).

Definition box : list (Z * Z) := [(0, 0); (10, 0); (10, 4); (0, 4)].

(** A toy engine: no file is an error, a file starting with a zero byte is
    an error, an empty file has no text, and anything else reads as three
    fragments, one of them twice and out of alphabetical order. *)
Definition engine (c : option bytes) : res error (list detection) :=
  match c with
  | None => Raise (PyError "FileNotFoundError" "no such image")
  | Some [] => Ok []
  | Some (Byte.x00 :: _) => Raise (PyError "RuntimeError" "engine failure")
  | Some _ =>
      Ok [Detection box "SCIENCE" (9 # 10); Detection box "BACHELOR" (1 # 2);
          Detection box "SCIENCE" (3 # 4)]
  end.

Definition env : Env :=
  {| imdecode := decode; bgr2gray := gray; imencode_jpg := encode; detect := engine |}.

(** A lossy encoder in the manner of JPEG: the file it writes reads back
    with 3 for 0 and 252 for 255. *)
Definition lossy_encode (img : list (list Z)) : bytes :=
  Byte.x89 :: concat (map (map (fun v => if v =? 0 then Byte.x03 else Byte.xfc)) img).

Definition lossy_env : Env :=
  {| imdecode := decode; bgr2gray := gray; imencode_jpg := lossy_encode;
     detect := engine |}.



(** An empty scratch directory and two names to draw. *)
Definition w0 : world := World ∅ ["a"; "b"].

(** Only one name can be drawn. *)
Definition w1 : world := World ∅ ["a"].

(** The scratch directory once the upload [cert] below has been staged. *)
Definition staged : world :=
  World {["/tmp/tmpa.png" := [Byte.x89; Byte.x96; Byte.xc8; Byte.x64]]} ["b"].

(** What the toy codec reads from that file. *)
Definition cert_img : list (list (Z * Z * Z)) :=
  [[(150, 150, 150); (200, 200, 200); (100, 100, 100)]].

(** A scratch directory holding a file that is not an image. *)
Definition raw : world := World {["/tmp/tmpa.jpeg" := [Byte.x41; Byte.x42]]} ["b"].

(** A decodable upload with grey levels 150, 200 and 100. *)
Definition cert : UploadFile :=
  {| filename := Some "cert.PNG";
     file_ := Chunk [Byte.x89; Byte.x96; Byte.xc8; Byte.x64] Eof |}.



(** An upload whose stream fails after its first chunk. *)
Definition io_error : error := PyError "OSError" "[Errno 5] Input/output error".

Definition truncated : UploadFile :=
  {| filename := Some "scan.png"; file_ := Chunk [Byte.x89; Byte.x96] (ReadError io_error) |}.

Definition notes : UploadFile :=
  {| filename := Some "notes.txt"; file_ := Chunk [Byte.x41] Eof |}.

End Demo.

(** * Properties *)

(** ** File names *)

Section FileNames.

Lemma split_not_nil sep s : PyStr.split sep s <> [].
Proof.
  destruct s as [|c r]; simpl; [discriminate|].
  destruct (Ascii.eqb c sep); [discriminate|].
  destruct (PyStr.split sep r); discriminate.
Qed.

Lemma split_dotless sep s :
  PyStr.contains sep s = false -> PyStr.split sep s = [s].
Proof.
  induction s as [|c r IH]; simpl; [reflexivity|].
  intros H. apply orb_false_iff in H as [Hc Hr].
  rewrite Hc, (IH Hr). reflexivity.
Qed.

Lemma split_dotted sep s :
  PyStr.contains sep s = true ->
  exists seg seg' segs, PyStr.split sep s = seg :: seg' :: segs.
Proof.
  induction s as [|c r IH]; simpl; [discriminate|].
  destruct (Ascii.eqb c sep) eqn:Hc; simpl.
  - intros _. destruct (PyStr.split sep r) as [|x xs] eqn:E.
    + destruct (split_not_nil _ _ E).
    + eauto.
  - intros Hr. destruct (IH Hr) as (seg & seg' & segs & ->). eauto.
Qed.

Lemma suffix_dotless s : PyStr.contains "." s = false -> suffix s = s.
Proof.
  destruct s as [|c r]; simpl; [reflexivity|].
  intros H. apply orb_false_iff in H as [Hc Hr].
  rewrite Hr, Hc. reflexivity.
Qed.

(** The code's [split(".")[-1]] is the suffix of the name. *)
Lemma last_split_suffix s :
  PyStr.last_item (PyStr.split "." s) = Some (suffix s).
Proof.
  unfold PyStr.last_item.
  induction s as [|c r IH]; simpl; [reflexivity|].
  destruct (PyStr.contains "." r) eqn:Hr.
  - destruct (split_dotted _ _ Hr) as (seg & seg' & segs & E).
    rewrite E in *. destruct (Ascii.eqb c "."); exact IH.
  - rewrite (split_dotless _ _ Hr) in *.
    destruct (Ascii.eqb c "."); reflexivity.
Qed.

Lemma lower_char_dot c : Ascii.eqb (PyStr.lower_char c) "." = Ascii.eqb c ".".
Proof.
  destruct c as [[] [] [] [] [] [] [] []]; reflexivity.
Qed.

Lemma contains_lower s :
  PyStr.contains "." (PyStr.lower s) = PyStr.contains "." s.
Proof.
  induction s as [|c r IH]; simpl; [reflexivity|].
  rewrite lower_char_dot, IH. reflexivity.
Qed.

Lemma suffix_lower s : suffix (PyStr.lower s) = PyStr.lower (suffix s).
Proof.
  induction s as [|c r IH]; simpl; [reflexivity|].
  rewrite contains_lower, lower_char_dot, IH.
  destruct (PyStr.contains "." r); [reflexivity|].
  destruct (Ascii.eqb c "."); reflexivity.
Qed.

(** [ext] as line 55 computes it. *)
Lemma ext_lower_suffix fn :
  PyStr.last_item (PyStr.split "." (PyStr.lower fn)) = Some (PyStr.lower (suffix fn)).
Proof. rewrite last_split_suffix, suffix_lower. reflexivity. Qed.

Lemma existsb_eqb_elem_of (x : string) (l : list string) :
  existsb (String.eqb x) l = true <-> x ∈ l.
Proof.
  rewrite existsb_exists. split.
  - intros (y & Hy & E). apply String.eqb_eq in E. subst.
    apply list_elem_of_In. exact Hy.
  - intros H. exists x. split; [apply list_elem_of_In; exact H|apply String.eqb_refl].
Qed.

(** What [validate] decides, in terms of the suffix of the name. *)
Lemma validate_Some fn :
  fn <> EmptyString ->
  validate (Some fn) =
    if existsb (String.eqb (PyStr.lower (suffix fn))) allowed
    then Ok (fn, PyStr.lower (suffix fn))
    else Raise (HTTPException 400 "Only JPG/PNG images are supported").
Proof.
  intros Hfn. unfold validate.
  destruct fn as [|c r]; [congruence|].
  rewrite ext_lower_suffix.
  destruct (existsb _ allowed); reflexivity.
Qed.


End FileNames.

(** ** Scratch files *)

Section ScratchFiles.

Lemma mkstemp_inner_Some suffix fs cands file rest :
  tempfile.mkstemp_inner suffix fs cands = Some (file, rest) ->
  fs !! file = None /\ exists name, name ∈ cands /\ file = temp_path name suffix.
Proof.
  induction cands as [|name cands IH]; simpl; [discriminate|].
  case_bool_decide as Hex.
  - intros H. destruct (IH H) as (Hnone & n & Hn & ->).
    split; [exact Hnone|]. exists n. split; [right; exact Hn|reflexivity].
  - intros [= <- <-]. split.
    + apply eq_None_not_Some. exact Hex.
    + exists name. split; [left|reflexivity].
Qed.

Lemma mkstemp_inner_is_Some suffix fs cands name :
  name ∈ cands -> fs !! temp_path name suffix = None ->
  is_Some (tempfile.mkstemp_inner suffix fs cands).
Proof.
  intros Hin Hfree. induction cands as [|n cands IH]; [inversion Hin|].
  simpl. case_bool_decide as Hex; [|eauto].
  apply IH. apply elem_of_cons in Hin as [->|Hin]; [|exact Hin].
  unfold temp_path in Hfree. rewrite Hfree in Hex. destruct Hex as [? [=]].
Qed.

(** [mkstemp] returns a path that did not exist and creates exactly that
    file, empty. *)
Lemma mkstemp_Ok suffix w p w' :
  tempfile.mkstemp suffix w = (Ok p, w') ->
  files w !! p = None /\ files w' = <[p := []]> (files w) /\
  exists name, name ∈ names w /\ p = temp_path name suffix.
Proof.
  unfold tempfile.mkstemp.
  destruct (tempfile.mkstemp_inner suffix (files w) (names w)) as [[file rest]|] eqn:E;
    [|discriminate].
  intros [= <- <-]. apply mkstemp_inner_Some in E as (Hnone & Hname).
  simpl. auto.
Qed.

Lemma mkstemp_Raise suffix w e w' :
  tempfile.mkstemp suffix w = (Raise e, w') -> files w' = files w.
Proof.
  unfold tempfile.mkstemp.
  destruct (tempfile.mkstemp_inner suffix (files w) (names w)) as [[file rest]|];
    [discriminate|].
  intros [= _ <-]. reflexivity.
Qed.

Lemma mkstemp_can_allocate suffix w :
  can_allocate suffix w -> exists p w', tempfile.mkstemp suffix w = (Ok p, w').
Proof.
  intros (name & Hin & Hfree).
  destruct (mkstemp_inner_is_Some suffix (files w) (names w) name Hin Hfree)
    as [[file rest] E].
  unfold tempfile.mkstemp. rewrite E. eauto.
Qed.

(** Copying touches the destination only, and does not remove it. *)
Lemma copyfileobj_files src dst w r w' :
  shutil.copyfileobj src dst w = (r, w') ->
  delete dst (files w') = delete dst (files w) /\
  (is_Some (files w !! dst) -> is_Some (files w' !! dst)).
Proof.
  revert w. induction src as [|buf rest IH|e]; intros w; simpl.
  - intros [= <- <-]. auto.
  - destruct buf as [|b buf]; [intros [= <- <-]; auto|].
    unfold bind, shutil.write. intros H. apply IH in H as [Hd Hs]. simpl in *.
    split.
    + rewrite Hd. apply map_eq. intros k.
      destruct (decide (k = dst)) as [->|Hne].
      * rewrite !lookup_delete_eq. reflexivity.
      * rewrite !lookup_delete_ne, lookup_alter_ne by congruence. reflexivity.
    + intros [old Hold]. apply Hs. rewrite lookup_alter_eq, Hold. simpl. eauto.
  - intros [= <- <-]. auto.
Qed.

(** How [stage] can end: with the scratch file in place, or with an
    exception and the scratch file possibly left behind. *)
Lemma stage_Ok suffix src w tmp w0 :
  stage suffix src w = (Ok tmp, w0) ->
  files w !! tmp = None /\ is_Some (files w0 !! tmp) /\
  delete tmp (files w0) = files w /\
  exists name, name ∈ names w /\ tmp = temp_path name suffix.
Proof.
  unfold stage, bind.
  destruct (tempfile.mkstemp suffix w) as [[p|e] wa] eqn:Emk; [|discriminate].
  apply mkstemp_Ok in Emk as (Hnone & Hfiles & Hname). simpl.
  destruct (shutil.copyfileobj src p _) as [[[]|e] wb] eqn:Ecp; [|discriminate].
  intros [= <- <-]. apply copyfileobj_files in Ecp as [Hd Hs]. simpl in *.
  repeat split; [exact Hnone| |  |exact Hname].
  - apply Hs. rewrite lookup_insert_eq. eauto.
  - rewrite Hd, delete_insert_eq, Hfiles, delete_insert_eq.
    apply delete_id. exact Hnone.
Qed.

End ScratchFiles.

(** ** Preprocessing *)

Section Preprocessing.
Context (env : Env).

Lemma lookup_map {A B} (f : A -> B) (l : list A) (i : nat) :
  map f l !! i = f <$> l !! i.
Proof.
  revert i. induction l as [|x l IH]; intros [|i]; simpl; try reflexivity.
  apply IH.
Qed.

Lemma pixel_map {A B} (f : A -> B) (img : list (list A)) (i j : nat) :
  pixel (map (map f) img) i j = f <$> pixel img i j.
Proof.
  unfold pixel. rewrite lookup_map.
  destruct (img !! i) as [row|]; simpl; [apply lookup_map|reflexivity].
Qed.

Lemma pixel_binarized img i j :
  pixel (binarized env img) i j =
  cv2.threshold_pixel 150 255 <$> pixel (cv2.cvtColor_BGR2GRAY env img) i j.
Proof. unfold binarized. simpl. apply pixel_map. Qed.

(** The run of [preprocess_image] on an image that decodes, when a scratch
    name is free. *)
Lemma preprocess_image_decoded w path img :
  files w !! path ≫= imdecode env = Some img ->
  can_allocate ".jpg" w ->
  exists name rest,
    name ∈ names w /\
    files w !! temp_path name ".jpg" = None /\
    preprocess_image env path w =
      (Ok (temp_path name ".jpg"),
       World (<[temp_path name ".jpg" := imencode_jpg env (binarized env img)]> (files w))
             rest).
Proof.
  intros Himg Hcan.
  destruct (mkstemp_can_allocate _ _ Hcan) as (p & w1 & Emk).
  destruct (mkstemp_Ok _ _ _ _ Emk) as (Hnone & Hfiles & name & Hin & ->).
  exists name, (names w1). split; [exact Hin|]. split; [exact Hnone|].
  unfold preprocess_image, bind, cv2.imread. rewrite Himg. simpl.
  rewrite Emk. unfold cv2.imwrite, ret. simpl.
  rewrite Hfiles, insert_insert_eq. reflexivity.
Qed.

(** C5: when the contents at the input path do not decode as an image
    (or there is no such file), [preprocess_image] returns the input path
    itself, raises nothing, and leaves the filesystem as it was: no scratch
    file is created. *)
Theorem preprocess_image_fallback w path :
  files w !! path ≫= imdecode env = None ->
  preprocess_image env path w = (Ok path, w).
Proof.
  intros Hnone. unfold preprocess_image, bind, cv2.imread.
  rewrite Hnone. reflexivity.
Qed.

(** C6, as the code has it: when the input decodes as an image and a
    scratch name is free, [preprocess_image] returns a path ending in [.jpg]
    that did not exist before and differs from the input path; the
    filesystem afterwards is the one before plus exactly that file, which
    holds the encoding of the binarized matrix; and the matrix handed to
    [cv2.imwrite] holds only the values 0 and 255. *)
Theorem preprocess_image_creates_one_jpg w path img :
  files w !! path ≫= imdecode env = Some img ->
  can_allocate ".jpg" w ->
  exists name w',
    preprocess_image env path w = (Ok (temp_path name ".jpg"), w') /\
    temp_path name ".jpg" <> path /\
    files w !! temp_path name ".jpg" = None /\
    files w' = <[temp_path name ".jpg" := imencode_jpg env (binarized env img)]> (files w) /\
    forall i j v, pixel (binarized env img) i j = Some v -> v = 0 \/ v = 255.
Proof.
  intros Himg Hcan.
  destruct (preprocess_image_decoded w path img Himg Hcan)
    as (name & rest & _ & Hnone & Erun).
  exists name, (World (<[temp_path name ".jpg" := imencode_jpg env (binarized env img)]> (files w)) rest).
  split; [exact Erun|]. split; [|split; [exact Hnone|split; [reflexivity|]]].
  - intros Heq. rewrite Heq in Hnone. rewrite Hnone in Himg. discriminate.
  - intros i j v. rewrite pixel_binarized.
    destruct (pixel (cv2.cvtColor_BGR2GRAY env img) i j) as [g|]; [|discriminate].
    simpl. unfold cv2.threshold_pixel. intros [= <-].
    destruct (150 <? g); auto.
Qed.

(** C2, as the code has it: when the input decodes as an image and a
    scratch name is free, the file written holds the binarized matrix, in
    which a pixel is 255 where the grey value is above 150 and 0 where it is
    150 or below. *)
Theorem preprocess_image_threshold w path img :
  files w !! path ≫= imdecode env = Some img ->
  can_allocate ".jpg" w ->
  (exists p w',
     preprocess_image env path w = (Ok p, w') /\
     files w' !! p = Some (imencode_jpg env (binarized env img))) /\
  forall i j g, pixel (cv2.cvtColor_BGR2GRAY env img) i j = Some g ->
    (150 < g -> pixel (binarized env img) i j = Some 255) /\
    (g <= 150 -> pixel (binarized env img) i j = Some 0).
Proof.
  intros Himg Hcan. split.
  - destruct (preprocess_image_decoded w path img Himg Hcan)
      as (name & rest & _ & _ & Erun).
    eexists _, _. split; [exact Erun|]. simpl. apply lookup_insert_eq.
  - intros i j g Hg. rewrite pixel_binarized, Hg. simpl.
    unfold cv2.threshold_pixel. split; intros Hcmp.
    + apply Z.ltb_lt in Hcmp. rewrite Hcmp. reflexivity.
    + apply Z.ltb_ge in Hcmp. rewrite Hcmp. reflexivity.
Qed.

End Preprocessing.

(** C5 on a file that is not an image. *)
Lemma preprocess_image_fallback_witness :
  files Demo.raw !! "/tmp/tmpa.jpeg" ≫= imdecode Demo.env = None /\
  preprocess_image Demo.env "/tmp/tmpa.jpeg" Demo.raw = (Ok "/tmp/tmpa.jpeg", Demo.raw).
Proof.
  split; [reflexivity|].
  apply (preprocess_image_fallback Demo.env Demo.raw "/tmp/tmpa.jpeg").
  reflexivity.
Defined.

(** C6 on the staged upload of the demo. *)
Lemma preprocess_image_creates_one_jpg_witness :
  exists name w',
    preprocess_image Demo.env "/tmp/tmpa.png" Demo.staged
      = (Ok (temp_path name ".jpg"), w') /\
    temp_path name ".jpg" <> "/tmp/tmpa.png" /\
    files Demo.staged !! temp_path name ".jpg" = None /\
    files w' = <[temp_path name ".jpg" :=
                   imencode_jpg Demo.env (binarized Demo.env Demo.cert_img)]>
                 (files Demo.staged) /\
    forall i j v, pixel (binarized Demo.env Demo.cert_img) i j = Some v ->
                  v = 0 \/ v = 255.
Proof.
  apply (preprocess_image_creates_one_jpg Demo.env Demo.staged "/tmp/tmpa.png"
           Demo.cert_img).
  - reflexivity.
  - exists "b". split; [left|reflexivity].
Defined.

(** C6 as worded fails for the pixels of the file written: with an
    encoder that loses information, as JPEG does, the staged upload of the
    demo decodes, preprocessing writes [/tmp/tmpb.jpg], and that file reads
    back with the pixel values 3 and 252, which are neither 0 nor 255. *)
Lemma written_jpeg_counterexample :
  files Demo.staged !! "/tmp/tmpa.png" ≫= imdecode Demo.lossy_env = Some Demo.cert_img /\
  fst (preprocess_image Demo.lossy_env "/tmp/tmpa.png" Demo.staged) = Ok "/tmp/tmpb.jpg" /\
  files (snd (preprocess_image Demo.lossy_env "/tmp/tmpa.png" Demo.staged))
    !! "/tmp/tmpb.jpg" ≫= imdecode Demo.lossy_env
  = Some [[(3, 3, 3); (252, 252, 252); (3, 3, 3)]] /\
  3 <> 0 /\ 3 <> 255 /\ 252 <> 0 /\ 252 <> 255.
Proof. repeat split; try reflexivity; lia. Qed.

(** The amended C2 on the staged upload of the demo. *)
Lemma preprocess_image_threshold_witness :
  (exists p w',
     preprocess_image Demo.env "/tmp/tmpa.png" Demo.staged = (Ok p, w') /\
     files w' !! p = Some (imencode_jpg Demo.env (binarized Demo.env Demo.cert_img))) /\
  forall i j g, pixel (cv2.cvtColor_BGR2GRAY Demo.env Demo.cert_img) i j = Some g ->
    (150 < g -> pixel (binarized Demo.env Demo.cert_img) i j = Some 255) /\
    (g <= 150 -> pixel (binarized Demo.env Demo.cert_img) i j = Some 0).
Proof.
  apply (preprocess_image_threshold Demo.env Demo.staged "/tmp/tmpa.png"
           Demo.cert_img).
  - reflexivity.
  - exists "b". split; [left|reflexivity].
Defined.

(** C2 as worded fails at the grey value 150 itself: the staged upload of
    the demo decodes, its first pixel has grey value 150, which is not
    below 150, and the pixel written for it is 0, not 255. *)
Lemma threshold_at_150_counterexample :
  files Demo.staged !! "/tmp/tmpa.png" ≫= imdecode Demo.env = Some Demo.cert_img /\
  pixel (cv2.cvtColor_BGR2GRAY Demo.env Demo.cert_img) 0 0 = Some 150 /\
  150 >= 150 /\
  fst (preprocess_image Demo.env "/tmp/tmpa.png" Demo.staged) = Ok "/tmp/tmpb.jpg" /\
  files (snd (preprocess_image Demo.env "/tmp/tmpa.png" Demo.staged)) !! "/tmp/tmpb.jpg"
    = Some (imencode_jpg Demo.env [[0; 255; 0]]) /\
  binarized Demo.env Demo.cert_img = [[0; 255; 0]] /\
  pixel (binarized Demo.env Demo.cert_img) 0 0 = Some 0 /\
  pixel (binarized Demo.env Demo.cert_img) 0 0 <> Some 255.
Proof.
  repeat split; try reflexivity; try lia.
  vm_compute. discriminate.
Qed.

(** ** The upload handler *)

Section Handler.
Context (env : Env).

(** The [finally] clause when [processed_path] was assigned: both paths are
    gone afterwards. *)
Lemma finally_clause_bound tmp p w :
  finally_clause tmp (Some p) w
  = (Ok tt, World (delete p (delete tmp (files w))) (names w)).
Proof.
  destruct w as [fs ns].
  unfold finally_clause, bind, os.path_exists, os.remove, read_local, ret. simpl.
  destruct (fs !! tmp) as [c|] eqn:E1; simpl; rewrite ?E1; simpl.
  - destruct (delete tmp fs !! p) as [c'|] eqn:E2; simpl; rewrite ?E2.
    + reflexivity.
    + rewrite (delete_id _ _ E2). reflexivity.
  - rewrite (delete_id _ _ E1).
    destruct (fs !! p) as [c'|] eqn:E2; simpl; rewrite ?E2.
    + reflexivity.
    + rewrite (delete_id _ _ E2). reflexivity.
Qed.

(** The [finally] clause when [processed_path] was never assigned: the
    staged file is removed, then reading the variable raises. *)
Lemma finally_clause_unbound tmp w :
  exists e,
    cls e = "UnboundLocalError" /\
    finally_clause tmp None w = (Raise e, World (delete tmp (files w)) (names w)).
Proof.
  eexists. split; [|destruct w as [fs ns]].
  2:{ unfold finally_clause, bind, os.path_exists, os.remove, read_local, raise, ret.
      simpl. destruct (fs !! tmp) as [c|] eqn:E1; simpl; rewrite ?E1.
      - reflexivity.
      - rewrite (delete_id _ _ E1). reflexivity. }
  reflexivity.
Qed.

Lemma readtext_world p w r w' :
  easyocr.readtext_detail0 env p w = (r, w') -> w' = w.
Proof.
  unfold easyocr.readtext_detail0.
  destruct (detect env (files w !! p)); intros [= _ <-]; reflexivity.
Qed.

(** The three ways the [try] statement can go, by what preprocessing and
    the engine do. *)
Lemma try_statement_recognized tmp w0 p w1 ds :
  preprocess_image env tmp w0 = (Ok p, w1) ->
  detect env (files w1 !! p) = Ok ds ->
  try_statement env tmp w0
  = (Ok (map text ds), World (delete p (delete tmp (files w1))) (names w1)).
Proof.
  intros Epre Edet. unfold try_statement, try_body, easyocr.readtext_detail0.
  rewrite Epre, Edet. rewrite finally_clause_bound. reflexivity.
Qed.

Lemma try_statement_engine_raises tmp w0 p w1 e :
  preprocess_image env tmp w0 = (Ok p, w1) ->
  detect env (files w1 !! p) = Raise e ->
  try_statement env tmp w0
  = (except_clause (Raise e),
     World (delete p (delete tmp (files w1))) (names w1)).
Proof.
  intros Epre Edet. unfold try_statement, try_body, easyocr.readtext_detail0.
  rewrite Epre, Edet. rewrite finally_clause_bound. reflexivity.
Qed.

Lemma try_statement_preprocess_raises tmp w0 e w1 :
  preprocess_image env tmp w0 = (Raise e, w1) ->
  exists e',
    cls e' = "UnboundLocalError" /\
    try_statement env tmp w0
    = (Raise (Unhandled e'), World (delete tmp (files w1)) (names w1)).
Proof.
  intros Epre. destruct (finally_clause_unbound tmp w1) as (e' & Hcls & Efin).
  exists e'. split; [exact Hcls|].
  unfold try_statement, try_body. rewrite Epre, Efin. reflexivity.
Qed.

(** The handler once validation has passed and the upload is staged. *)
Lemma upload_and_ocr_staged file w fn ext tmp w0 :
  validate (filename file) = Ok (fn, ext) ->
  stage ("." +:+ ext) (file_ file) w = (Ok tmp, w0) ->
  upload_and_ocr env file w =
    match try_statement env tmp w0 with
    | (Ok results, w') =>
        (Ok (JObj [("filename", JStr fn); ("ocr_text", JList (map JStr results))]), w')
    | (Raise e, w') => (Raise e, w')
    end.
Proof.
  intros Eval Est. unfold upload_and_ocr, bind, lift. rewrite Eval, Est.
  destruct (try_statement env tmp w0) as [[results|e] w']; reflexivity.
Qed.

Lemma upload_and_ocr_stage_raises file w fn ext e w0 :
  validate (filename file) = Ok (fn, ext) ->
  stage ("." +:+ ext) (file_ file) w = (Raise e, w0) ->
  upload_and_ocr env file w = (Raise (Unhandled e), w0).
Proof.
  intros Eval Est. unfold upload_and_ocr, bind, lift. rewrite Eval, Est.
  reflexivity.
Qed.

(** What [preprocess_image] does to the filesystem, whatever the input. *)
Lemma preprocess_image_files path w r w1 :
  preprocess_image env path w = (r, w1) ->
  (r = Ok path /\ w1 = w) \/
  (exists p c, r = Ok p /\ files w !! p = None /\ files w1 = <[p := c]> (files w)) \/
  (exists e, r = Raise e /\ files w1 = files w).
Proof.
  unfold preprocess_image, bind, cv2.imread. simpl.
  destruct (files w !! path ≫= imdecode env) as [img|]; simpl.
  - destruct (tempfile.mkstemp ".jpg" w) as [[p|e] wa] eqn:Emk; simpl.
    + apply mkstemp_Ok in Emk as (Hnone & Hfiles & _).
      intros [= <- <-]. right. left. eexists _, _.
      split; [reflexivity|]. split; [exact Hnone|].
      simpl. rewrite Hfiles, insert_insert_eq. reflexivity.
    + apply mkstemp_Raise in Emk. intros [= <- <-]. right. right. eauto.
  - intros [= <- <-]. left. auto.
Qed.

(** X1: once the upload is staged, every path of the handler (recognition
    returning or raising, preprocessing falling back, writing a second
    scratch file or raising) leaves the filesystem as the request found
    it. *)
Lemma staged_request_leaves_no_file file w fn ext tmp w0 r w' :
  validate (filename file) = Ok (fn, ext) ->
  stage ("." +:+ ext) (file_ file) w = (Ok tmp, w0) ->
  upload_and_ocr env file w = (r, w') ->
  files w' = files w.
Proof.
  intros Eval Est. rewrite (upload_and_ocr_staged _ _ _ _ _ _ Eval Est).
  apply stage_Ok in Est as (Hfresh & Hthere & Hdel & _).
  destruct (preprocess_image env tmp w0) as [rp w1] eqn:Epre.
  destruct (preprocess_image_files _ _ _ _ Epre) as
    [[-> ->]|[(p & c & -> & Hp & Hfiles)|(e & -> & Hfiles)]].
  - assert (Hw : forall w2, files w2 = delete tmp (delete tmp (files w0)) ->
                            files w2 = files w).
    { intros w2 ->. rewrite Hdel. apply delete_id. exact Hfresh. }
    destruct (detect env (files w0 !! tmp)) as [ds|e] eqn:Edet.
    + rewrite (try_statement_recognized _ _ _ _ _ Epre Edet).
      intros [= _ <-]. apply Hw. reflexivity.
    + rewrite (try_statement_engine_raises _ _ _ _ _ Epre Edet).
      unfold except_clause.
      destruct (isinstance_Exception e); intros [= _ <-]; apply Hw; reflexivity.
  - assert (Hw : forall w2, files w2 = delete p (delete tmp (files w1)) ->
                            files w2 = files w).
    { intros w2 ->. rewrite Hfiles.
      assert (p <> tmp) by (intros ->; rewrite Hp in Hthere; destruct Hthere; discriminate).
      rewrite delete_insert_ne by congruence.
      rewrite delete_insert_eq, Hdel. apply delete_id.
      rewrite <- Hdel in Hfresh. rewrite <- Hdel.
      rewrite lookup_delete_ne by congruence. exact Hp. }
    destruct (detect env (files w1 !! p)) as [ds|e] eqn:Edet.
    + rewrite (try_statement_recognized _ _ _ _ _ Epre Edet).
      intros [= _ <-]. apply Hw. reflexivity.
    + rewrite (try_statement_engine_raises _ _ _ _ _ Epre Edet).
      unfold except_clause.
      destruct (isinstance_Exception e); intros [= _ <-]; apply Hw; reflexivity.
  - destruct (try_statement_preprocess_raises _ _ _ _ Epre) as (e' & _ & ->).
    intros [= _ <-]. simpl. rewrite Hfiles. exact Hdel.
Qed.

Lemma validate_Ok fno fn ext :
  validate fno = Ok (fn, ext) ->
  fno = Some fn /\ fn <> EmptyString /\ ext = PyStr.lower (suffix fn) /\
  existsb (String.eqb ext) allowed = true.
Proof.
  destruct fno as [fn'|]; [|discriminate].
  destruct (decide (fn' = EmptyString)) as [->|Hfn]; [discriminate|].
  rewrite (validate_Some _ Hfn).
  destruct (existsb _ allowed) eqn:Hmem; [|discriminate].
  intros [= <- <-]. auto.
Qed.

(** After validation the handler never answers 400. *)
Lemma validated_not_400 file w fn ext :
  validate (filename file) = Ok (fn, ext) ->
  status (fst (serve env (POST_upload file) w)) <> 400.
Proof.
  intros Eval. unfold serve.
  destruct (stage ("." +:+ ext) (file_ file) w) as [[tmp|e] w0] eqn:Est.
  - rewrite (upload_and_ocr_staged _ _ _ _ _ _ Eval Est).
    destruct (preprocess_image env tmp w0) as [[p|e] w1] eqn:Epre.
    + destruct (detect env (files w1 !! p)) as [ds|e] eqn:Edet.
      * rewrite (try_statement_recognized _ _ _ _ _ Epre Edet). simpl. lia.
      * rewrite (try_statement_engine_raises _ _ _ _ _ Epre Edet).
        unfold except_clause. destruct (isinstance_Exception e); simpl; lia.
    + destruct (try_statement_preprocess_raises _ _ _ _ Epre) as (e' & _ & ->).
      simpl. lia.
  - rewrite (upload_and_ocr_stage_raises _ _ _ _ _ _ Eval Est). simpl. lia.
Qed.

(** C4: a request without a file name, or with the empty one, is answered
    400 "No filename provided"; a request whose non-empty file name has a
    lower-cased suffix other than jpg, jpeg and png is answered 400
    "Only JPG/PNG images are supported"; and a file name whose lower-cased
    suffix is jpg, jpeg or png passes validation, so that the answer is not
    a 400. *)
Theorem upload_validation file w :
  (filename file = None \/ filename file = Some EmptyString ->
   serve env (POST_upload file) w
   = (Response 400 (detail_body "No filename provided"), w)) /\
  (forall fn, filename file = Some fn -> fn <> EmptyString ->
   PyStr.lower (suffix fn) ∉ allowed ->
   serve env (POST_upload file) w
   = (Response 400 (detail_body "Only JPG/PNG images are supported"), w)) /\
  (forall fn, filename file = Some fn ->
   PyStr.lower (suffix fn) ∈ allowed ->
   validate (filename file) = Ok (fn, PyStr.lower (suffix fn)) /\
   status (fst (serve env (POST_upload file) w)) <> 400).
Proof.
  split; [|split].
  - intros [E|E]; unfold serve, upload_and_ocr; rewrite E; reflexivity.
  - intros fn E Hfn Hnot. unfold serve, upload_and_ocr.
    rewrite E, (validate_Some _ Hfn).
    destruct (existsb _ allowed) eqn:Hmem; [|reflexivity].
    apply existsb_eqb_elem_of in Hmem. contradiction.
  - intros fn E Hin.
    assert (Hfn : fn <> EmptyString).
    { intros ->. apply existsb_eqb_elem_of in Hin. discriminate Hin. }
    assert (Eval : validate (filename file) = Ok (fn, PyStr.lower (suffix fn))).
    { rewrite E, (validate_Some _ Hfn).
      apply existsb_eqb_elem_of in Hin. rewrite Hin. reflexivity. }
    split; [exact Eval|]. exact (validated_not_400 _ _ _ _ Eval).
Qed.

(** C9: for a non-empty file name without a dot the whole lower-cased name
    is taken as the suffix: such a name passes validation when its
    lower-cased value is jpg, jpeg or png, and is answered 400 otherwise. *)
Theorem dotless_filename fn :
  PyStr.contains "." fn = false ->
  fn <> EmptyString ->
  PyStr.last_item (PyStr.split "." (PyStr.lower fn)) = Some (PyStr.lower fn) /\
  (PyStr.lower fn ∈ allowed -> validate (Some fn) = Ok (fn, PyStr.lower fn)) /\
  (PyStr.lower fn ∉ allowed ->
   validate (Some fn) = Raise (HTTPException 400 "Only JPG/PNG images are supported")).
Proof.
  intros Hdot Hfn.
  rewrite ext_lower_suffix, (validate_Some _ Hfn), (suffix_dotless _ Hdot).
  split; [reflexivity|]. split; intros H.
  - apply existsb_eqb_elem_of in H. rewrite H. reflexivity.
  - destruct (existsb _ allowed) eqn:Hmem; [|reflexivity].
    apply existsb_eqb_elem_of in Hmem. contradiction.
Qed.

(** C7: when validation fails (no file name, the empty file name, or a
    suffix that is not allowed) the handler raises the 400 error with the
    filesystem and the name generator exactly as they were: no file has
    been created. *)
Theorem invalid_upload_creates_nothing file w :
  (filename file = None \/ filename file = Some EmptyString \/
   exists fn, filename file = Some fn /\ PyStr.lower (suffix fn) ∉ allowed) ->
  exists d,
    upload_and_ocr env file w = (Raise (HTTPException 400 d), w) /\
    serve env (POST_upload file) w = (Response 400 (detail_body d), w).
Proof.
  intros [E|[E|(fn & E & Hnot)]].
  - exists "No filename provided". unfold serve, upload_and_ocr. rewrite E. auto.
  - exists "No filename provided". unfold serve, upload_and_ocr. rewrite E. auto.
  - destruct (decide (fn = EmptyString)) as [->|Hfn].
    + exists "No filename provided". unfold serve, upload_and_ocr. rewrite E. auto.
    + exists "Only JPG/PNG images are supported".
      unfold serve, upload_and_ocr. rewrite E, (validate_Some _ Hfn).
      destruct (existsb _ allowed) eqn:Hmem; [|auto].
      apply existsb_eqb_elem_of in Hmem. contradiction.
Qed.


(** C8: when the handler returns, the upload was staged, preprocessed and
    read by the engine, and the body is the object with the two fields
    [filename], the file name of the request as it came, and [ocr_text], the
    texts of the engine's detections in the engine's order, one per
    detection, without boxes or confidences; the answer is 200. *)
Theorem success_response file w body w' :
  upload_and_ocr env file w = (Ok body, w') ->
  exists fn ext tmp w0 p w1 ds,
    filename file = Some fn /\
    stage ("." +:+ ext) (file_ file) w = (Ok tmp, w0) /\
    preprocess_image env tmp w0 = (Ok p, w1) /\
    detect env (files w1 !! p) = Ok ds /\
    body = JObj [("filename", JStr fn); ("ocr_text", JList (map JStr (map text ds)))] /\
    serve env (POST_upload file) w = (Response 200 body, w').
Proof.
  intros Erun.
  destruct (validate (filename file)) as [[fn ext]|e] eqn:Eval.
  2:{ unfold upload_and_ocr, raise in Erun. rewrite Eval in Erun. discriminate. }
  destruct (validate_Ok _ _ _ Eval) as (Hfn & _).
  destruct (stage ("." +:+ ext) (file_ file) w) as [[tmp|e] w0] eqn:Est.
  2:{ rewrite (upload_and_ocr_stage_raises _ _ _ _ _ _ Eval Est) in Erun.
      discriminate. }
  assert (Hserve : serve env (POST_upload file) w = (Response 200 body, w'))
    by (unfold serve; rewrite Erun; reflexivity).
  rewrite (upload_and_ocr_staged _ _ _ _ _ _ Eval Est) in Erun.
  destruct (preprocess_image env tmp w0) as [[p|e] w1] eqn:Epre.
  2:{ destruct (try_statement_preprocess_raises _ _ _ _ Epre) as (e' & _ & E).
      rewrite E in Erun. discriminate. }
  destruct (detect env (files w1 !! p)) as [ds|e] eqn:Edet.
  2:{ rewrite (try_statement_engine_raises _ _ _ _ _ Epre Edet) in Erun.
      unfold except_clause in Erun. destruct (isinstance_Exception e); discriminate. }
  rewrite (try_statement_recognized _ _ _ _ _ Epre Edet) in Erun.
  injection Erun as <- <-.
  exists fn, ext, tmp, w0, p, w1, ds. auto 10.
Qed.

(** C10: a request to GET / is answered 200 with the body
    [{"status": "ok", "message": "Degree Verifier API running"}], whatever
    the state, which it leaves as it was. *)
Theorem read_root_response w :
  serve env GET_root w
  = (Response 200 (JObj [("status", JStr "ok");
                         ("message", JStr "Degree Verifier API running")]), w).
Proof. reflexivity. Qed.

End Handler.

(** ** The handler on the demo instance *)

(** C4 on three uploads: no file name, [notes.txt] and [cert.PNG]. *)
Lemma upload_validation_witness :
  serve Demo.env (POST_upload {| filename := None; file_ := Eof |}) Demo.w0
  = (Response 400 (detail_body "No filename provided"), Demo.w0) /\
  serve Demo.env (POST_upload Demo.notes) Demo.w0
  = (Response 400 (detail_body "Only JPG/PNG images are supported"), Demo.w0) /\
  validate (filename Demo.cert) = Ok ("cert.PNG", "png") /\
  status (fst (serve Demo.env (POST_upload Demo.cert) Demo.w0)) <> 400.
Proof.
  split; [|split].
  - apply (upload_validation Demo.env {| filename := None; file_ := Eof |} Demo.w0).
    left. reflexivity.
  - apply (upload_validation Demo.env Demo.notes Demo.w0) with (fn := "notes.txt").
    + reflexivity.
    + discriminate.
    + intros H. apply existsb_eqb_elem_of in H. discriminate H.
  - apply (upload_validation Demo.env Demo.cert Demo.w0) with (fn := "cert.PNG").
    + reflexivity.
    + apply existsb_eqb_elem_of. reflexivity.
Defined.

(** C9 on the name [PNG], which passes, and on [README], which does not. *)
Lemma dotless_filename_witness :
  validate (Some "PNG") = Ok ("PNG", "png") /\
  validate (Some "README")
  = Raise (HTTPException 400 "Only JPG/PNG images are supported").
Proof.
  split.
  - apply (dotless_filename "PNG"); [reflexivity|discriminate|].
    apply existsb_eqb_elem_of. reflexivity.
  - apply (dotless_filename "README"); [reflexivity|discriminate|].
    intros H. apply existsb_eqb_elem_of in H. discriminate H.
Defined.

(** C7 on [notes.txt]. *)
Lemma invalid_upload_creates_nothing_witness :
  exists d,
    upload_and_ocr Demo.env Demo.notes Demo.w0 = (Raise (HTTPException 400 d), Demo.w0) /\
    serve Demo.env (POST_upload Demo.notes) Demo.w0
    = (Response 400 (detail_body d), Demo.w0).
Proof.
  apply (invalid_upload_creates_nothing Demo.env Demo.notes Demo.w0).
  right. right. exists "notes.txt". split; [reflexivity|].
  intros H. apply existsb_eqb_elem_of in H. discriminate H.
Defined.

(** C8 on [cert.PNG]: three fragments, one of them twice, in the engine's
    order. *)
Lemma success_response_witness :
  upload_and_ocr Demo.env Demo.cert Demo.w0
  = (Ok (JObj [("filename", JStr "cert.PNG");
               ("ocr_text", JList [JStr "SCIENCE"; JStr "BACHELOR"; JStr "SCIENCE"])]),
     World ∅ []) /\
  exists fn ext tmp w0 p w1 ds,
    filename Demo.cert = Some fn /\
    stage ("." +:+ ext) (file_ Demo.cert) Demo.w0 = (Ok tmp, w0) /\
    preprocess_image Demo.env tmp w0 = (Ok p, w1) /\
    detect Demo.env (files w1 !! p) = Ok ds /\
    JObj [("filename", JStr "cert.PNG");
          ("ocr_text", JList [JStr "SCIENCE"; JStr "BACHELOR"; JStr "SCIENCE"])]
    = JObj [("filename", JStr fn); ("ocr_text", JList (map JStr (map text ds)))] /\
    serve Demo.env (POST_upload Demo.cert) Demo.w0
    = (Response 200
         (JObj [("filename", JStr "cert.PNG");
                ("ocr_text", JList [JStr "SCIENCE"; JStr "BACHELOR"; JStr "SCIENCE"])]),
       World ∅ []).
Proof.
  split; [reflexivity|].
  apply (success_response Demo.env Demo.cert Demo.w0). reflexivity.
Defined.



(** C1 fails on the code when the copy of the upload raises: the upload
    [scan.png] passes validation, the scratch file [/tmp/tmpa.png] did not
    exist before the request, the stream raises after its first chunk, and
    when the request is over the scratch file is still there, holding that
    chunk. *)
Theorem staging_failure_leaves_scratch_file :
  validate (filename Demo.truncated) = Ok ("scan.png", "png") /\
  files Demo.w0 !! "/tmp/tmpa.png" = None /\
  fst (upload_and_ocr Demo.env Demo.truncated Demo.w0) = Raise (Unhandled Demo.io_error) /\
  files (snd (upload_and_ocr Demo.env Demo.truncated Demo.w0)) !! "/tmp/tmpa.png"
  = Some [Byte.x89; Byte.x96].
Proof. repeat split; reflexivity. Qed.

(** When [preprocess_image] raises (here: no scratch name is left for it),
    the [finally] clause reads [processed_path] before it was assigned: the
    handler ends with that [UnboundLocalError] instead of the 500 "OCR
    failed" error; the staged file has been removed before. *)
Example preprocess_failure_unbound_local :
  fst (preprocess_image Demo.env "/tmp/tmpa.png" (snd (stage ".png" (file_ Demo.cert) Demo.w1)))
  = Raise (PyError "FileExistsError" "[Errno 17] No usable temporary file name found") /\
  upload_and_ocr Demo.env Demo.cert Demo.w1
  = (Raise (Unhandled
       (PyError "UnboundLocalError"
          "cannot access local variable 'processed_path' where it is not associated with a value")),
     World ∅ []).
Proof. split; reflexivity. Qed.

(** * Further properties of the pipeline *)

(** ** Staging *)

Section Staging.

Lemma alter_append (fs : gmap string bytes) dst c buf :
  fs !! dst = Some c ->
  alter (fun old => (old ++ buf)%list) dst fs = <[dst := (c ++ buf)%list]> fs.
Proof.
  intros H. apply map_eq. intros k. destruct (decide (k = dst)) as [->|Hne].
  - rewrite lookup_alter_eq, lookup_insert_eq, H. reflexivity.
  - rewrite lookup_alter_ne, lookup_insert_ne by congruence. reflexivity.
Qed.

(** [copyfileobj] appends the data of the stream to the destination and
    ends as the stream does. *)
Lemma copyfileobj_run src dst w c :
  files w !! dst = Some c ->
  shutil.copyfileobj src dst w
  = (match stream_error src with Some e => Raise e | None => Ok tt end,
     World (<[dst := (c ++ stream_data src)%list]> (files w)) (names w)).
Proof.
  revert w c. induction src as [|buf rest IH|e]; intros [fs ns] c H; simpl in *.
  - unfold ret. rewrite app_nil_r, (insert_id fs dst c H). reflexivity.
  - destruct buf as [|b buf].
    + unfold ret. rewrite app_nil_r, (insert_id fs dst c H). reflexivity.
    + unfold bind, shutil.write. simpl.
      rewrite (alter_append fs dst c (b :: buf) H).
      rewrite (IH _ (c ++ b :: buf)%list) by (simpl; apply lookup_insert_eq).
      simpl. rewrite insert_insert_eq, <- app_assoc. reflexivity.
  - unfold raise. rewrite app_nil_r, (insert_id fs dst c H). reflexivity.
Qed.

(** [stage] once [mkstemp] has given a path. *)
Lemma stage_run suffix src w p wa :
  tempfile.mkstemp suffix w = (Ok p, wa) ->
  stage suffix src w
  = (match stream_error src with Some e => Raise e | None => Ok p end,
     World (<[p := stream_data src]> (files w)) (names wa)).
Proof.
  intros Emk. unfold stage, bind. rewrite Emk.
  apply mkstemp_Ok in Emk as (_ & Hfiles & _). unfold shutil.open_wb.
  rewrite (copyfileobj_run src p _ []) by (simpl; apply lookup_insert_eq).
  simpl. rewrite Hfiles, !insert_insert_eq.
  destruct (stream_error src); reflexivity.
Qed.


(** X3: when a scratch name is free and the stream does not raise, [stage]
    returns a path built from one of the names to draw and the suffix, that
    did not exist before, and the filesystem afterwards is the one before
    plus that file, holding exactly the data of the stream. *)
Theorem stage_copies_upload suffix src w :
  can_allocate suffix w ->
  stream_error src = None ->
  exists name rest,
    name ∈ names w /\
    files w !! temp_path name suffix = None /\
    stage suffix src w
    = (Ok (temp_path name suffix),
       World (<[temp_path name suffix := stream_data src]> (files w)) rest).
Proof.
  intros Hcan Hok.
  destruct (mkstemp_can_allocate _ _ Hcan) as (p & wa & Emk).
  destruct (mkstemp_Ok _ _ _ _ Emk) as (Hnone & _ & name & Hin & ->).
  exists name, (names wa). split; [exact Hin|]. split; [exact Hnone|].
  rewrite (stage_run _ _ _ _ _ Emk), Hok. reflexivity.
Qed.

End Staging.

(** X3 on the upload [cert.PNG] of the demo. *)
Lemma stage_copies_upload_witness :
  exists name rest,
    name ∈ names Demo.w0 /\
    files Demo.w0 !! temp_path name ".png" = None /\
    stage ".png" (file_ Demo.cert) Demo.w0
    = (Ok (temp_path name ".png"),
       World (<[temp_path name ".png" := stream_data (file_ Demo.cert)]> (files Demo.w0))
             rest).
Proof.
  apply (stage_copies_upload ".png" (file_ Demo.cert) Demo.w0).
  - exists "a". split; [left|reflexivity].
  - reflexivity.
Defined.

(** ** File names, continued *)

Section FileNamesMore.

Lemma lower_empty s : PyStr.lower s = EmptyString <-> s = EmptyString.
Proof. destruct s; simpl; split; congruence. Qed.

Lemma contains_dot_append stem suf :
  PyStr.contains "." (stem +:+ String "." suf) = true.
Proof.
  induction stem as [|c stem IH]; simpl; [reflexivity|].
  rewrite IH. apply orb_true_r.
Qed.

Lemma suffix_append stem suf :
  PyStr.contains "." suf = false -> suffix (stem +:+ String "." suf) = suf.
Proof.
  intros Hsuf. induction stem as [|c stem IH]; simpl.
  - rewrite Hsuf. reflexivity.
  - rewrite contains_dot_append. exact IH.
Qed.

(** X7: two file names that differ only in the case of their letters get
    the same verdict: both pass validation with the same [ext], or both are
    refused with the same error. *)
Theorem validate_case_insensitive fn fn' :
  PyStr.lower fn = PyStr.lower fn' ->
  match validate (Some fn), validate (Some fn') with
  | Ok (n, ext), Ok (n', ext') => n = fn /\ n' = fn' /\ ext = ext'
  | Raise e, Raise e' => e = e'
  | _, _ => False
  end.
Proof.
  intros Heq.
  destruct (decide (fn = EmptyString)) as [->|Hfn].
  - symmetry in Heq. apply (proj1 (lower_empty fn')) in Heq. subst. reflexivity.
  - assert (Hfn' : fn' <> EmptyString).
    { intros ->. apply (proj1 (lower_empty fn)) in Heq. contradiction. }
    rewrite (validate_Some _ Hfn), (validate_Some _ Hfn').
    rewrite <- !suffix_lower, Heq.
    destruct (existsb _ allowed); auto.
Qed.

(** X8: only what follows the last dot counts: a name [stem.suf], where
    [suf] has no dot, passes validation exactly when [suf] in lower case is
    jpg, jpeg or png, whatever [stem] is and however many dots it has; [ext]
    is then [suf] in lower case, and the refusal is the 400 error. *)
Theorem validate_last_dot stem suf :
  PyStr.contains "." suf = false ->
  validate (Some (stem +:+ String "." suf)) =
    if existsb (String.eqb (PyStr.lower suf)) allowed
    then Ok (stem +:+ String "." suf, PyStr.lower suf)
    else Raise (HTTPException 400 "Only JPG/PNG images are supported").
Proof.
  intros Hsuf.
  assert (Hne : stem +:+ String "." suf <> EmptyString) by (destruct stem; discriminate).
  rewrite (validate_Some _ Hne), (suffix_append _ _ Hsuf). reflexivity.
Qed.

End FileNamesMore.

(** X7 on [CERT.PNG] and [cert.png]. *)
Lemma validate_case_insensitive_witness :
  match validate (Some "CERT.PNG"), validate (Some "cert.png") with
  | Ok (n, ext), Ok (n', ext') => n = "CERT.PNG" /\ n' = "cert.png" /\ ext = ext'
  | Raise e, Raise e' => e = e'
  | _, _ => False
  end.
Proof. apply (validate_case_insensitive "CERT.PNG" "cert.png"). reflexivity. Defined.

(** X8 on a name with two dots that passes, on a name whose last suffix is
    not an image suffix, and on a name that ends with a dot. *)
Lemma validate_last_dot_witness :
  validate (Some "archive.tar.PNG") = Ok ("archive.tar.PNG", "png") /\
  validate (Some "photo.jpg.exe")
  = Raise (HTTPException 400 "Only JPG/PNG images are supported") /\
  validate (Some "photo.")
  = Raise (HTTPException 400 "Only JPG/PNG images are supported").
Proof.
  split; [|split].
  - apply (validate_last_dot "archive.tar" "PNG"). reflexivity.
  - apply (validate_last_dot "photo.jpg" "exe"). reflexivity.
  - apply (validate_last_dot "photo" ""). reflexivity.
Defined.

(** ** The handler, continued *)

Section HandlerMore.
Context (env : Env).

(** X5: [preprocess_image] never removes or changes a file that exists:
    whatever it returns or raises, every file of the filesystem before the
    call, the input among them, is there afterwards with the same contents. *)
Theorem preprocess_image_keeps_files path w r w1 :
  preprocess_image env path w = (r, w1) ->
  forall q c, files w !! q = Some c -> files w1 !! q = Some c.
Proof.
  intros Erun q c Hq.
  destruct (preprocess_image_files env _ _ _ _ Erun) as
    [[_ ->]|[(p & c' & _ & Hp & ->)|(e & _ & ->)]]; try exact Hq.
  rewrite lookup_insert_ne; [exact Hq|]. intros ->. congruence.
Qed.

(** X2: when validation has passed and the upload is staged, but
    [preprocess_image] raises, the handler does not raise the 500 "OCR
    failed" error: it ends with the [UnboundLocalError] of the [finally]
    clause, which the framework answers with its plain server error; the
    staged file has been removed and the filesystem is as before the
    request. *)
Theorem preprocess_error_is_unbound_local file w fn ext tmp w0 e w1 :
  validate (filename file) = Ok (fn, ext) ->
  stage ("." +:+ ext) (file_ file) w = (Ok tmp, w0) ->
  preprocess_image env tmp w0 = (Raise e, w1) ->
  exists e' w',
    cls e' = "UnboundLocalError" /\
    upload_and_ocr env file w = (Raise (Unhandled e'), w') /\
    files w' = files w /\
    serve env (POST_upload file) w = (Response 500 (JStr "Internal Server Error"), w').
Proof.
  intros Eval Est Epre.
  destruct (try_statement_preprocess_raises env _ _ _ _ Epre) as (e' & Hcls & Etry).
  exists e', (World (delete tmp (files w1)) (names w1)).
  assert (Erun : upload_and_ocr env file w
                 = (Raise (Unhandled e'), World (delete tmp (files w1)) (names w1))).
  { rewrite (upload_and_ocr_staged env _ _ _ _ _ _ Eval Est), Etry. reflexivity. }
  split; [exact Hcls|]. split; [exact Erun|]. split.
  - simpl. apply stage_Ok in Est as (_ & _ & Hdel & _).
    destruct (preprocess_image_files env _ _ _ _ Epre) as
      [[[=] _]|[(p & c & [=] & _)|(e0 & _ & ->)]]. exact Hdel.
  - unfold serve. rewrite Erun. reflexivity.
Qed.

(** X4: when validation has passed and a scratch name is free, but the
    stream of the upload raises [e] while it is copied, the handler ends
    with [e] itself, and the scratch file, which did not exist before, stays
    behind holding the data read before the failure; nothing else has
    changed. *)
Theorem stream_error_leaves_partial_file file w fn ext e :
  validate (filename file) = Ok (fn, ext) ->
  can_allocate ("." +:+ ext) w ->
  stream_error (file_ file) = Some e ->
  exists name rest,
    name ∈ names w /\
    files w !! temp_path name ("." +:+ ext) = None /\
    upload_and_ocr env file w
    = (Raise (Unhandled e),
       World (<[temp_path name ("." +:+ ext) := stream_data (file_ file)]> (files w)) rest).
Proof.
  intros Eval Hcan Herr.
  destruct (mkstemp_can_allocate _ _ Hcan) as (p & wa & Emk).
  destruct (mkstemp_Ok _ _ _ _ Emk) as (Hnone & _ & name & Hin & ->).
  exists name, (names wa). split; [exact Hin|]. split; [exact Hnone|].
  apply (upload_and_ocr_stage_raises env _ _ _ _ _ _ Eval).
  rewrite (stage_run _ _ _ _ _ Emk), Herr. reflexivity.
Qed.




(** The [try] statement removes the staged file and leaves nothing of its
    own, however it ends. *)
Lemma try_statement_files tmp w0 c r w' :
  files w0 !! tmp = Some c ->
  try_statement env tmp w0 = (r, w') ->
  files w' = delete tmp (files w0).
Proof.
  intros Htmp.
  destruct (preprocess_image env tmp w0) as [rp w1] eqn:Epre.
  destruct (preprocess_image_files env _ _ _ _ Epre) as
    [[-> ->]|[(p & c' & -> & Hp & Hfiles)|(e & -> & Hfiles)]].
  - assert (Hd : delete tmp (delete tmp (files w0)) = delete tmp (files w0))
      by (apply delete_id, lookup_delete_eq).
    destruct (detect env (files w0 !! tmp)) as [ds|e] eqn:Edet.
    + rewrite (try_statement_recognized env _ _ _ _ _ Epre Edet).
      intros [= _ <-]. exact Hd.
    + rewrite (try_statement_engine_raises env _ _ _ _ _ Epre Edet).
      intros Heq. apply (f_equal snd) in Heq. simpl in Heq. subst w'. exact Hd.
  - assert (Hne : tmp <> p) by (intros ->; congruence).
    assert (Hd : delete p (delete tmp (files w1)) = delete tmp (files w0)).
    { rewrite Hfiles, delete_insert_ne, delete_insert_eq by congruence.
      apply delete_id. rewrite lookup_delete_ne by congruence. exact Hp. }
    destruct (detect env (files w1 !! p)) as [ds|e] eqn:Edet.
    + rewrite (try_statement_recognized env _ _ _ _ _ Epre Edet).
      intros [= _ <-]. exact Hd.
    + rewrite (try_statement_engine_raises env _ _ _ _ _ Epre Edet).
      intros Heq. apply (f_equal snd) in Heq. simpl in Heq. subst w'. exact Hd.
  - destruct (try_statement_preprocess_raises env _ _ _ _ Epre) as (e' & _ & ->).
    intros [= _ <-]. simpl. rewrite Hfiles. reflexivity.
Qed.

(** X11: whatever the request and however the handler ends, the
    filesystem afterwards is the one before, or the one before plus one
    file that did not exist, and the latter only when the handler ends with
    an exception it did not catch.  So no file that existed before the
    request is ever removed or changed. *)
Theorem upload_and_ocr_frame file w r w' :
  upload_and_ocr env file w = (r, w') ->
  (files w' = files w \/
   exists e tmp data,
     r = Raise (Unhandled e) /\ files w !! tmp = None /\
     files w' = <[tmp := data]> (files w)) /\
  forall q c, files w !! q = Some c -> files w' !! q = Some c.
Proof.
  intros Erun.
  assert (Hcases : files w' = files w \/
    exists e tmp data,
      r = Raise (Unhandled e) /\ files w !! tmp = None /\
      files w' = <[tmp := data]> (files w)).
  { destruct (validate (filename file)) as [[fn ext]|e] eqn:Eval.
    - destruct (tempfile.mkstemp ("." +:+ ext) w) as [[p|e] wa] eqn:Emk.
      + pose proof (stage_run _ (file_ file) _ _ _ Emk) as Est.
        apply mkstemp_Ok in Emk as (Hnone & _ & _).
        destruct (stream_error (file_ file)) as [e|].
        * rewrite (upload_and_ocr_stage_raises env _ _ _ _ _ _ Eval Est) in Erun.
          injection Erun as <- <-. right. eauto 10.
        * rewrite (upload_and_ocr_staged env _ _ _ _ _ _ Eval Est) in Erun.
          left.
          destruct (try_statement env p _) as [rt wt] eqn:Etry.
          apply (try_statement_files _ _ (stream_data (file_ file))) in Etry;
            [|simpl; apply lookup_insert_eq].
          simpl in Etry. rewrite delete_insert_eq, (delete_id _ _ Hnone) in Etry.
          destruct rt; injection Erun as <- <-; exact Etry.
      + assert (Est : stage ("." +:+ ext) (file_ file) w = (Raise e, wa))
          by (unfold stage, bind; rewrite Emk; reflexivity).
        rewrite (upload_and_ocr_stage_raises env _ _ _ _ _ _ Eval Est) in Erun.
        injection Erun as <- <-. left. exact (mkstemp_Raise _ _ _ _ Emk).
    - unfold upload_and_ocr, raise in Erun. rewrite Eval in Erun.
      injection Erun as <- <-. left. reflexivity. }
  split; [exact Hcases|].
  intros q c Hq. destruct Hcases as [->|(e & tmp & data & _ & Hnone & ->)];
    [exact Hq|].
  rewrite lookup_insert_ne; [exact Hq|]. intros ->. congruence.
Qed.

(** X12: the handler names the scratch file of the upload after the
    suffix of the file name in lower case, not after the name as it came:
    for a file name whose lower-cased suffix is jpg, jpeg or png, when a
    name is free for that suffix and the stream raises during the copy, the
    file the handler leaves behind sits at a path made of a drawn name, a
    dot and the lower-cased suffix. *)
Theorem staged_path_has_validated_suffix file w fn e :
  filename file = Some fn ->
  PyStr.lower (suffix fn) ∈ allowed ->
  can_allocate ("." +:+ PyStr.lower (suffix fn)) w ->
  stream_error (file_ file) = Some e ->
  exists name rest,
    name ∈ names w /\
    files w !! temp_path name ("." +:+ PyStr.lower (suffix fn)) = None /\
    upload_and_ocr env file w
    = (Raise (Unhandled e),
       World (<[temp_path name ("." +:+ PyStr.lower (suffix fn))
                := stream_data (file_ file)]> (files w)) rest).
Proof.
  intros Efn Hin Hcan Herr.
  assert (Hfn : fn <> EmptyString).
  { intros ->. apply existsb_eqb_elem_of in Hin. discriminate Hin. }
  assert (Eval : validate (filename file) = Ok (fn, PyStr.lower (suffix fn))).
  { rewrite Efn, (validate_Some _ Hfn).
    apply existsb_eqb_elem_of in Hin. rewrite Hin. reflexivity. }
  destruct (mkstemp_can_allocate _ _ Hcan) as (p & wa & Emk).
  destruct (mkstemp_Ok _ _ _ _ Emk) as (Hnone & _ & name & Hname & ->).
  exists name, (names wa). split; [exact Hname|]. split; [exact Hnone|].
  apply (upload_and_ocr_stage_raises env _ _ _ _ _ _ Eval).
  rewrite (stage_run _ _ _ _ _ Emk), Herr. reflexivity.
Qed.

End HandlerMore.

(** ** The further properties on the demo instance *)

(** X1 on [cert.PNG]: both scratch files are gone when the request ends. *)
Lemma staged_request_leaves_no_file_witness :
  stage ".png" (file_ Demo.cert) Demo.w0 = (Ok "/tmp/tmpa.png", Demo.staged) /\
  files (snd (upload_and_ocr Demo.env Demo.cert Demo.w0)) = files Demo.w0.
Proof.
  split; [reflexivity|].
  apply (staged_request_leaves_no_file Demo.env Demo.cert Demo.w0
           "cert.PNG" "png" "/tmp/tmpa.png" Demo.staged
           (fst (upload_and_ocr Demo.env Demo.cert Demo.w0))).
  - reflexivity.
  - reflexivity.
  - reflexivity.
Defined.

(** X2 on [cert.PNG] when only one scratch name can be drawn. *)
Lemma preprocess_error_is_unbound_local_witness :
  exists e' w',
    cls e' = "UnboundLocalError" /\
    upload_and_ocr Demo.env Demo.cert Demo.w1 = (Raise (Unhandled e'), w') /\
    files w' = files Demo.w1 /\
    serve Demo.env (POST_upload Demo.cert) Demo.w1
    = (Response 500 (JStr "Internal Server Error"), w').
Proof.
  apply (preprocess_error_is_unbound_local Demo.env Demo.cert Demo.w1
           "cert.PNG" "png" "/tmp/tmpa.png"
           (World {["/tmp/tmpa.png" := [Byte.x89; Byte.x96; Byte.xc8; Byte.x64]]} [])
           (PyError "FileExistsError" "[Errno 17] No usable temporary file name found")
           (World {["/tmp/tmpa.png" := [Byte.x89; Byte.x96; Byte.xc8; Byte.x64]]} []));
    reflexivity.
Defined.

(** X4 on the upload whose stream fails after its first chunk. *)
Lemma stream_error_leaves_partial_file_witness :
  exists name rest,
    name ∈ names Demo.w0 /\
    files Demo.w0 !! temp_path name ".png" = None /\
    upload_and_ocr Demo.env Demo.truncated Demo.w0
    = (Raise (Unhandled Demo.io_error),
       World (<[temp_path name ".png" := stream_data (file_ Demo.truncated)]>
                (files Demo.w0)) rest).
Proof.
  apply (stream_error_leaves_partial_file Demo.env Demo.truncated Demo.w0
           "scan.png" "png" Demo.io_error).
  - reflexivity.
  - exists "a". split; [left|reflexivity].
  - reflexivity.
Defined.

(** X5 on the staged upload of the demo: it is still there, unchanged,
    after preprocessing. *)
Lemma preprocess_image_keeps_files_witness :
  files (snd (preprocess_image Demo.env "/tmp/tmpa.png" Demo.staged)) !! "/tmp/tmpa.png"
  = Some [Byte.x89; Byte.x96; Byte.xc8; Byte.x64].
Proof.
  apply (preprocess_image_keeps_files Demo.env "/tmp/tmpa.png" Demo.staged
           (fst (preprocess_image Demo.env "/tmp/tmpa.png" Demo.staged))
           (snd (preprocess_image Demo.env "/tmp/tmpa.png" Demo.staged))).
  - reflexivity.
  - reflexivity.
Defined.



(** X11 on the upload whose stream fails: the one file left is new. *)
Lemma upload_and_ocr_frame_witness :
  (files (snd (upload_and_ocr Demo.env Demo.truncated Demo.staged)) = files Demo.staged \/
   exists e tmp data,
     fst (upload_and_ocr Demo.env Demo.truncated Demo.staged) = Raise (Unhandled e) /\
     files Demo.staged !! tmp = None /\
     files (snd (upload_and_ocr Demo.env Demo.truncated Demo.staged))
     = <[tmp := data]> (files Demo.staged)) /\
  forall q c, files Demo.staged !! q = Some c ->
    files (snd (upload_and_ocr Demo.env Demo.truncated Demo.staged)) !! q = Some c.
Proof.
  apply (upload_and_ocr_frame Demo.env Demo.truncated Demo.staged
           (fst (upload_and_ocr Demo.env Demo.truncated Demo.staged))
           (snd (upload_and_ocr Demo.env Demo.truncated Demo.staged))).
  reflexivity.
Defined.

(** X12 on an upload named [SCAN.PNG] whose stream fails: the file left
    behind ends in [.png]. *)
Lemma staged_path_has_validated_suffix_witness :
  exists name rest,
    name ∈ names Demo.w0 /\
    files Demo.w0 !! temp_path name ("." +:+ PyStr.lower (suffix "SCAN.PNG")) = None /\
    upload_and_ocr Demo.env
      {| filename := Some "SCAN.PNG"; file_ := file_ Demo.truncated |} Demo.w0
    = (Raise (Unhandled Demo.io_error),
       World (<[temp_path name ("." +:+ PyStr.lower (suffix "SCAN.PNG"))
                := stream_data (file_ Demo.truncated)]> (files Demo.w0)) rest).
Proof.
  apply (staged_path_has_validated_suffix Demo.env
           {| filename := Some "SCAN.PNG"; file_ := file_ Demo.truncated |}
           Demo.w0 "SCAN.PNG" Demo.io_error).
  - reflexivity.
  - apply existsb_eqb_elem_of. reflexivity.
  - exists "a". split; [left|reflexivity].
  - reflexivity.
Defined.

